(** * hello-app: a FastAPI application with one route

    The application is [src/main.py]:

<<
    from fastapi import FastAPI

    app = FastAPI()

    @app.get("/")
    async def root():
        return {"message": "Hello CI/CD World!"}
>>

    [Module Main] embeds that file.  Everything the file calls lives in the
    framework it imports, so the modules before it embed the parts of the
    framework a request to this application runs through (FastAPI 0.115 on
    Starlette 0.46, and the [json] encoder of CPython they call): building
    the route table, matching a request against it, running the endpoint,
    rendering its return value, and the responses for unmatched paths and
    methods.  Strings are byte strings (the UTF-8 encoding of the Python
    [str]), so a response body is a [string]. *)

From Stdlib Require Import ZArith NArith Ascii String List.
From stdpp Require Import base option gmap sets list strings pretty.

Local Open Scope string_scope.
Local Open Scope Z_scope.

(** ** Byte strings *)

Module Str.

(** The double-quote character, code 34. *)
Definition dq : string := String "034"%char EmptyString.

(** The line feed character, code 10. *)
Definition lf : string := String "010"%char EmptyString.

Definition hex_lower (n : N) : ascii :=
  match n with
  | 10 => "a" | 11 => "b" | 12 => "c" | 13 => "d" | 14 => "e" | 15 => "f"
  | _ => ascii_of_N (48 + n)
  end%N%char.

Definition hex_upper (n : N) : ascii :=
  match n with
  | 10 => "A" | 11 => "B" | 12 => "C" | 13 => "D" | 14 => "E" | 15 => "F"
  | _ => ascii_of_N (48 + n)
  end%N%char.

(** [str.lower()] and [str.upper()] on the ASCII range. *)
Definition lower_char (c : ascii) : ascii :=
  let n := N_of_ascii c in
  if ((65 <=? n) && (n <=? 90))%N then ascii_of_N (n + 32) else c.

Definition upper_char (c : ascii) : ascii :=
  let n := N_of_ascii c in
  if ((97 <=? n) && (n <=? 122))%N then ascii_of_N (n - 32) else c.

Fixpoint map_chars (f : ascii -> ascii) (s : string) : string :=
  match s with
  | EmptyString => EmptyString
  | String c t => String (f c) (map_chars f t)
  end.

Definition lower : string -> string := map_chars lower_char.
Definition upper : string -> string := map_chars upper_char.

(** [s.startswith(p)]. *)
Definition startswith (p s : string) : bool := String.prefix p s.

(** [s.endswith("/")]. *)
Fixpoint ends_with_slash (s : string) : bool :=
  match s with
  | EmptyString => false
  | String c EmptyString => Ascii.eqb c "/"
  | String _ t => ends_with_slash t
  end.

(** [s.rstrip("/")]: drops every trailing slash. *)
Fixpoint rstrip_slash (s : string) : string :=
  match s with
  | EmptyString => EmptyString
  | String c t =>
      match rstrip_slash t with
      | EmptyString => if Ascii.eqb c "/" then EmptyString else String c EmptyString
      | t' => String c t'
      end
  end.

(** [sub in s]. *)
Fixpoint contains (sub s : string) : bool :=
  String.prefix sub s ||
  match s with
  | EmptyString => false
  | String _ t => contains sub t
  end.

(** [str(n)] for a length. *)
Definition of_nat (n : nat) : string := pretty n.

(** [str(z)] for an [int]. *)
Definition of_Z (z : Z) : string := pretty z.

End Str.

(** ** The JSON encoder: CPython's [json.dumps] on a flat dictionary *)

Module Json.

(** The Python values this application and the framework's error bodies
    put in a dictionary: scalars.  Keys are [str]. *)
Inductive pyval :=
| PyNone
| PyBool (b : bool)
| PyInt (z : Z)
| PyStr (s : string).

(** A [dict]: keys are unique and keep their insertion order, which is
    the order [json.dumps] writes them in. *)
Definition pydict := list (string * pyval).

Fixpoint dict_get (d : pydict) (k : string) : option pyval :=
  match d with
  | [] => None
  | (k', v) :: t => if String.eqb k' k then Some v else dict_get t k
  end.

(** [d[k] = v]: an existing key keeps its position, a new one goes last. *)
Fixpoint dict_setitem (d : pydict) (k : string) (v : pyval) : pydict :=
  match d with
  | [] => [(k, v)]
  | (k', v') :: t =>
      if String.eqb k' k then (k', v) :: t else (k', v') :: dict_setitem t k v
  end.

(** A dictionary display [{k1: v1, ..., kn: vn}]: the items are stored
    left to right. *)
Definition dict_display (items : list (string * pyval)) : pydict :=
  fold_left (fun d kv => dict_setitem d (fst kv) (snd kv)) items [].

Definition dict_keys (d : pydict) : list string := map fst d.

(** [json.encoder.py_encode_basestring], the escaping [ensure_ascii=False]
    selects: the quote, the backslash and the control characters are
    escaped, every other byte is written as it is. *)
Definition escape_char (c : ascii) : string :=
  let n := N_of_ascii c in
  if (n =? 34)%N then "\" ++ Str.dq
  else if (n =? 92)%N then "\\"
  else if (n =? 8)%N then "\b"
  else if (n =? 12)%N then "\f"
  else if (n =? 10)%N then "\n"
  else if (n =? 13)%N then "\r"
  else if (n =? 9)%N then "\t"
  else if (n <? 32)%N then
    "\u00" ++ String (Str.hex_lower (n / 16)) (String (Str.hex_lower (n mod 16)) "")
  else String c "".

Fixpoint escape (s : string) : string :=
  match s with
  | EmptyString => EmptyString
  | String c t => escape_char c ++ escape t
  end.

Definition encode_basestring (s : string) : string :=
  Str.dq ++ escape s ++ Str.dq.

Definition encode_scalar (v : pyval) : string :=
  match v with
  | PyNone => "null"
  | PyBool true => "true"
  | PyBool false => "false"
  | PyInt z => Str.of_Z z
  | PyStr s => encode_basestring s
  end.

(** [json.dumps(d, ensure_ascii=False, allow_nan=False, indent=None,
    separators=(item_sep, key_sep))] for a dictionary [d]. *)
Definition dumps (item_sep key_sep : string) (d : pydict) : string :=
  "{" ++
  String.concat item_sep
    (map (fun kv => encode_basestring (fst kv) ++ key_sep ++ encode_scalar (snd kv)) d)
  ++ "}".

(** The separators [json.dumps] uses when the caller passes none. *)
Definition default_separators : string * string := (", ", ": ").

End Json.

(** ** Python state and coroutines *)

Module Py.
Import Json.

Definition loc := positive.

(** Objects on the heap: dictionaries, and objects of any other type,
    which no code modelled here looks into. *)
Inductive pyobj :=
| ObjDict (d : pydict)
| ObjOther (type_name : string).

(** The state of the process: the module's global names and the heap they
    and every live request refer to. *)
Record pystate := PyState {
  globals : gmap string loc;
  heap : gmap loc pyobj
}.

(** Exceptions: the framework's [HTTPException], and any other one. *)
Inductive pyexc :=
| HTTPException (status : Z) (detail : string) (headers : option (list (string * string)))
| OtherException (type_name : string).

(** Where a coroutine stands when control comes back to its caller: it
    returned, it raised, or it is suspended at an [await] and goes on
    from the state it is resumed in. *)
Inductive completion (A : Type) :=
| Returned (a : A) (s : pystate)
| Raised (e : pyexc) (s : pystate)
| Awaiting (k : pystate -> completion A).
Arguments Returned {A} a s.
Arguments Raised {A} e s.
Arguments Awaiting {A} k.

Definition coro (A : Type) := pystate -> completion A.

Definition ret {A} (a : A) : coro A := fun s => Returned a s.

Definition raise {A} (e : pyexc) : coro A := fun s => Raised e s.

Fixpoint bind_completion {A B} (c : completion A) (f : A -> coro B) : completion B :=
  match c with
  | Returned a s => f a s
  | Raised e s => Raised e s
  | Awaiting k => Awaiting (fun s => bind_completion (k s) f)
  end.

(** [x = await m; f x]. *)
Definition bind {A B} (m : coro A) (f : A -> coro B) : coro B :=
  fun s => bind_completion (m s) f.

Fixpoint catch_completion {A} (c : completion A) (h : pyexc -> coro A) : completion A :=
  match c with
  | Returned a s => Returned a s
  | Raised e s => h e s
  | Awaiting k => Awaiting (fun s => catch_completion (k s) h)
  end.

(** [try: m  except Exception as e: h e]. *)
Definition catch {A} (m : coro A) (h : pyexc -> coro A) : coro A :=
  fun s => catch_completion (m s) h.

(** Number of times the coroutine is suspended before it completes when
    resumed in the states [resume] gives; [None] if [fuel] resumptions do
    not complete it. *)
Fixpoint suspensions {A} (fuel : nat) (resume : pystate) (c : completion A) : option nat :=
  match c with
  | Returned _ _ | Raised _ _ => Some 0%nat
  | Awaiting k =>
      match fuel with
      | O => None
      | S fuel' => S <$> suspensions fuel' resume (k resume)
      end
  end.

(** Evaluating a dictionary display allocates a new [dict] object and
    yields a reference to it. *)
Definition new_dict (items : list (string * pyval)) : coro loc :=
  fun s =>
    let l := fresh (dom (heap s)) in
    Returned l {| globals := globals s; heap := <[l := ObjDict (dict_display items)]> (heap s) |}.

(** Reads the dictionary a reference points to. *)
Definition deref_dict (l : loc) (s : pystate) : option pydict :=
  match heap s !! l with
  | Some (ObjDict d) => Some d
  | _ => None
  end.

End Py.

Notation "x <- m ;; k" := (Py.bind m (fun x => k))
(at level 100, m at next level, right associativity).

(** ** Starlette: requests, responses, routes and the router *)

Module Starlette.
Import Json Py.

(** The ASGI scope of an HTTP request together with its body.  The server
    hands over the method in upper case, the percent-decoded path and the
    headers with lower-case names.  The application is served at the root
    of the server: the scope's [root_path] is empty. *)
Record Request := {
  method : string;
  path : string;
  query_string : string;
  scheme : string;
  server : option (string * Z);
  headers : list (string * string);
  body_in : string
}.

Record Response := {
  status_code : Z;
  raw_headers : list (string * string);
  body : string
}.

(** What the client gets: a response this model builds in full, or one of
    the framework's own pages (the OpenAPI schema and the documentation
    pages generated from it), named by the function that renders it. *)
Inductive Reply :=
| HttpReply (r : Response)
| BuiltinPage (page : string).

(** [Headers.get]: the first header of that name. *)
Fixpoint header_get (hs : list (string * string)) (k : string) : option string :=
  match hs with
  | [] => None
  | (k', v) :: t => if String.eqb k' k then Some v else header_get t k
  end.

(** [MutableHeaders.__setitem__]: the first header of that name is
    overwritten and later ones removed; a new name is appended. *)
Definition header_set (hs : list (string * string)) (k v : string) : list (string * string) :=
  let k := Str.lower k in
  (fix go (hs : list (string * string)) (found : bool) :=
     match hs with
     | [] => if found then [] else [(k, v)]
     | (k', v') :: t =>
         if String.eqb k' k
         then (if found then go t true else (k, v) :: go t true)
         else (k', v') :: go t found
     end) hs false.

(** [Response.init_headers]. *)
Definition init_headers (status : Z) (media_type : option string) (body : string)
    (hdrs : option (list (string * string))) : list (string * string) :=
  let raw := match hdrs with
             | None => []
             | Some hs => map (fun kv => (Str.lower (fst kv), snd kv)) hs
             end in
  let keys := map fst raw in
  let populate_content_length := negb (existsb (String.eqb "content-length") keys) in
  let populate_content_type := negb (existsb (String.eqb "content-type") keys) in
  let raw :=
    if populate_content_length
       && negb ((status <? 200) || (status =? 204) || (status =? 304))
    then (raw ++ [("content-length", Str.of_nat (String.length body))])%list
    else raw in
  match media_type with
  | Some content_type =>
      if populate_content_type then
        let content_type :=
          if Str.startswith "text/" content_type
             && negb (Str.contains "charset=" (Str.lower content_type))
          then content_type ++ "; charset=utf-8"
          else content_type in
        (raw ++ [("content-type", content_type)])%list
      else raw
  | None => raw
  end.

(** [Response.__init__] once [render] has produced the body. *)
Definition make_response (media_type : option string) (body : string) (status : Z)
    (hdrs : option (list (string * string))) : Response :=
  {| status_code := status;
     raw_headers := init_headers status media_type body hdrs;
     body := body |}.

(** [JSONResponse.render]: compact separators. *)
Definition JSONResponse_render (content : pydict) : string :=
  dumps "," ":" content.

(** [JSONResponse(content, status_code, headers)]; [status_code] defaults
    to 200. *)
Definition JSONResponse (content : pydict) (status : Z)
    (hdrs : option (list (string * string))) : Response :=
  make_response (Some "application/json") (JSONResponse_render content) status hdrs.

Definition PlainTextResponse (content : string) (status : Z)
    (hdrs : option (list (string * string))) : Response :=
  make_response (Some "text/plain") content status hdrs.

(** [urllib.parse.quote(s, safe=safe)]. *)
Definition always_safe (c : ascii) : bool :=
  let n := N_of_ascii c in
  ((65 <=? n) && (n <=? 90) || (97 <=? n) && (n <=? 122) || (48 <=? n) && (n <=? 57))%N
  || Str.contains (String c "") "_.-~".

Fixpoint quote (safe s : string) : string :=
  match s with
  | EmptyString => EmptyString
  | String c t =>
      (if always_safe c || Str.contains (String c "") safe
       then String c ""
       else let n := N_of_ascii c in
            String "%" (String (Str.hex_upper (n / 16)) (String (Str.hex_upper (n mod 16)) "")))
      ++ quote safe t
  end.

(** [URL(scope=...)]. *)
Definition URL_of_scope (req : Request) : string :=
  let url :=
    match header_get (headers req) "host" with
    | Some host_header => scheme req ++ "://" ++ host_header ++ path req
    | None =>
        match server req with
        | None => path req
        | Some (host, port) =>
            let default_port := if String.eqb (scheme req) "https" || String.eqb (scheme req) "wss"
                                then 443 else 80 in
            if port =? default_port
            then scheme req ++ "://" ++ host ++ path req
            else scheme req ++ "://" ++ host ++ ":" ++ Str.of_Z port ++ path req
        end
    end in
  if String.eqb (query_string req) "" then url else url ++ "?" ++ query_string req.

(** [RedirectResponse(url)]: status 307, empty body, a [location] header. *)
Definition RedirectResponse (url : string) : Response :=
  let r := make_response None "" 307 None in
  {| status_code := status_code r;
     raw_headers := header_set (raw_headers r) "location"
                      (quote (":/%#?=@[]!$&'()*+,;") url);
     body := body r |}.

Inductive Match := NONE | PARTIAL | FULL.

(** A route.  [app] is the ASGI callable the route hands a matching request
    to; [endpoint] names the function it was registered with and tells
    whether that function is the application's ([is_api_route]) or one of
    the framework's own. *)
Record Route := {
  route_path : string;
  endpoint : string;
  is_api_route : bool;
  methods : option (list string);
  app : Request -> coro Reply
}.

(** [set.add]. *)
Definition set_add (x : string) (xs : list string) : list string :=
  if existsb (String.eqb x) xs then xs else (xs ++ [x])%list.

(** [{method.upper() for method in methods}]. *)
Definition upper_set (ms : list string) : list string :=
  fold_left (fun acc m => set_add (Str.upper m) acc) ms [].

(** [Route.__init__] for an endpoint that is a function: [methods]
    defaults to GET, and a route that accepts GET also accepts HEAD. *)
Definition Route_new (p : string) (name : string) (run : Request -> coro Reply)
    (ms : option (list string)) : Route :=
  let ms := match ms with None => ["GET"] | Some ms => ms end in
  let ms := upper_set ms in
  {| route_path := p;
     endpoint := name;
     is_api_route := false;
     methods := Some (if existsb (String.eqb "GET") ms then set_add "HEAD" ms else ms);
     app := run |}.

(** [get_route_path(scope)] with an empty [root_path]. *)
Definition get_route_path (req : Request) : string := path req.

(** [compile_path(p)] for a path [p] without parameters is the pattern
    [^p$] with [p] escaped, and [path_regex.match] accepts [p] itself and,
    because [$] also matches before a final line feed, [p] followed by
    one. *)
Definition path_regex_match (p : string) (s : string) : bool :=
  String.eqb s p || String.eqb s (p ++ Str.lf).

(** [self.methods and scope["method"] not in self.methods]. *)
Definition method_refused (r : Route) (req : Request) : bool :=
  match methods r with
  | None | Some [] => false
  | Some ms => negb (existsb (String.eqb (method req)) ms)
  end.

(** [Route.matches]. *)
Definition matches (r : Route) (req : Request) : Match :=
  if path_regex_match (route_path r) (get_route_path req)
  then (if method_refused r req then PARTIAL else FULL)
  else NONE.

(** [http.HTTPStatus(status).phrase] for the statuses the router raises. *)
Definition phrase (status : Z) : string :=
  if status =? 404 then "Not Found"
  else if status =? 405 then "Method Not Allowed"
  else "".

(** [Route.handle], inside an application. *)
Definition handle (r : Route) (req : Request) : coro Reply :=
  if method_refused r req
  then raise (HTTPException 405 (phrase 405)
                (Some [("Allow", String.concat ", " (default [] (methods r)))]))
  else app r req.

(** The loop of [Router.app] over the routes: the first full match ends it;
    otherwise it yields the first partial match, if any. *)
Fixpoint first_match (routes : list Route) (req : Request) (partial : option Route)
    : Route + option Route :=
  match routes with
  | [] => inr partial
  | r :: rest =>
      match matches r req with
      | FULL => inl r
      | PARTIAL => first_match rest req (match partial with None => Some r | _ => partial end)
      | NONE => first_match rest req partial
      end
  end.

(** [Router.not_found], inside an application. *)
Definition not_found : coro Reply :=
  raise (HTTPException 404 (phrase 404) None).

(** [Router.app] for an HTTP request, with [redirect_slashes] on. *)
Definition Router_app (routes : list Route) (req : Request) : coro Reply :=
  match first_match routes req None with
  | inl r => handle r req
  | inr (Some r) => handle r req
  | inr None =>
      let p := get_route_path req in
      if negb (String.eqb p "/") then
        let redirect_req :=
          {| method := method req;
             path := if Str.ends_with_slash p then Str.rstrip_slash (path req)
                     else path req ++ "/";
             query_string := query_string req;
             scheme := scheme req;
             server := server req;
             headers := headers req;
             body_in := body_in req |} in
        if existsb (fun r => match matches r redirect_req with NONE => false | _ => true end)
             routes
        then ret (HttpReply (RedirectResponse (URL_of_scope redirect_req)))
        else not_found
      else not_found
  end.

(** [ServerErrorMiddleware.error_response] without [debug]. *)
Definition error_response : Response :=
  PlainTextResponse "Internal Server Error" 500 None.

End Starlette.

(** ** FastAPI: the application object, its routes and its request handler *)

Module FastAPI.
Import Json Py Starlette.

(** A [FastAPI] instance, as far as serving goes: the routes of its
    router, in registration order. *)
Record FastAPI := { routes : list Route }.

(** The framework's own endpoints. *)
Definition builtin (page : string) : Request -> coro Reply :=
  fun _ => ret (BuiltinPage page).

(** [FastAPI()] with no arguments; [__init__] ends with [setup()], which
    registers the OpenAPI schema and the documentation pages through
    [add_route], that is as Starlette routes with default methods. *)
Definition FastAPI_new : FastAPI :=
  {| routes :=
       [ Route_new "/openapi.json" "openapi" (builtin "openapi") None;
         Route_new "/docs" "swagger_ui_html" (builtin "swagger_ui_html") None;
         Route_new "/docs/oauth2-redirect" "swagger_ui_redirect"
           (builtin "swagger_ui_redirect") None;
         Route_new "/redoc" "redoc_html" (builtin "redoc_html") None ] |}.

(** [is_body_allowed_for_status_code]. *)
Definition is_body_allowed_for_status_code (status : Z) : bool :=
  negb ((status <? 200) || (status =? 204) || (status =? 205) || (status =? 304)).

(** [get_request_handler] for an endpoint that declares no parameter, no
    dependency, no response model and no status code: the endpoint is
    awaited with no argument, the dictionary it returns is the content of a
    [JSONResponse], the default response class, built with its default
    status. *)
Definition get_request_handler (endpoint : coro loc) : Request -> coro Reply :=
  fun _ =>
    raw_response <- endpoint ;;
    fun s =>
      match deref_dict raw_response s with
      | Some content =>
          let response := JSONResponse content 200 None in
          Returned (HttpReply
            (if is_body_allowed_for_status_code (status_code response) then response
             else {| status_code := status_code response;
                     raw_headers := raw_headers response;
                     body := "" |})) s
      | None => Raised (OtherException "TypeError") s
      end.

(** [APIRoute.__init__]: the methods are those given, in upper case, GET if
    none is given. *)
Definition APIRoute_new (p : string) (name : string) (f : coro loc)
    (ms : option (list string)) : Route :=
  let ms := match ms with None => ["GET"] | Some ms => ms end in
  {| route_path := p;
     endpoint := name;
     is_api_route := true;
     methods := Some (upper_set ms);
     app := get_request_handler f |}.

(** [add_api_route]: the new route goes last. *)
Definition add_api_route (a : FastAPI) (p : string) (name : string) (f : coro loc)
    (ms : option (list string)) : FastAPI :=
  {| routes := (routes a ++ [APIRoute_new p name f ms])%list |}.

(** The decorator [@a.get(p)] applied to the function [f] named [name]. *)
Definition get (a : FastAPI) (p : string) (name : string) (f : coro loc) : FastAPI :=
  add_api_route a p name f (Some ["GET"]).

(** [http_exception_handler]. *)
Definition http_exception_handler (status : Z) (detail : string)
    (hdrs : option (list (string * string))) : Response :=
  if negb (is_body_allowed_for_status_code status)
  then make_response None "" status hdrs
  else JSONResponse [("detail", PyStr detail)] status hdrs.

(** [FastAPI.__call__] for an HTTP request: the router runs inside the
    exception middleware, which answers an [HTTPException] through
    [http_exception_handler], and inside the server-error middleware, which
    answers any other exception with status 500. *)
Definition call (a : FastAPI) (req : Request) : coro Reply :=
  catch (Router_app (routes a) req)
    (fun e =>
       match e with
       | HTTPException status detail hdrs =>
           ret (HttpReply (http_exception_handler status detail hdrs))
       | OtherException _ => ret (HttpReply error_response)
       end).

(** Requests served one after the other. *)
Fixpoint call_all (a : FastAPI) (reqs : list Request) : coro (list Reply) :=
  match reqs with
  | [] => ret []
  | req :: rest =>
      reply <- call a req ;;
      replies <- call_all a rest ;;
      ret (reply :: replies)
  end.

(** The (method, path, endpoint) triples of the routes registered for
    application functions. *)
Definition api_route_table (a : FastAPI) : list (string * string * string) :=
  flat_map
    (fun r =>
       if is_api_route r
       then map (fun m => (m, route_path r, endpoint r)) (default [] (methods r))
       else [])
    (routes a).

End FastAPI.

(** ** The application: [src/main.py] *)

Module Main.
Import Json Py Starlette FastAPI.

(** [async def root(): return {"message": "Hello CI/CD World!"}]. *)
Definition root : coro loc :=
  new_dict [("message", PyStr "Hello CI/CD World!")].

(** [app = FastAPI()] followed by [@app.get("/")] on [root]. *)
Definition app : FastAPI.FastAPI :=
  get FastAPI_new "/" "root" root.

(** A request as a client sends it, with no query string and nothing but
    the given headers and body. *)
Definition request (m p : string) (hdrs : list (string * string)) (b : string) : Request :=
  {| method := m; path := p; query_string := ""; scheme := "http";
     server := Some ("127.0.0.1", 8000); headers := hdrs; body_in := b |}.

(** The state of the process before any request: nothing allocated. *)
Definition empty_state : pystate := {| globals := ∅; heap := ∅ |}.

(** The body the specification gives for [GET /]: a space after the
    colon. *)
Definition spec_body : string :=
  "{" ++ Str.dq ++ "message" ++ Str.dq ++ ": " ++ Str.dq ++ "Hello CI/CD World!" ++ Str.dq ++ "}".

(** The body with the separators [JSONResponse.render] passes. *)
Definition compact_body : string :=
  "{" ++ Str.dq ++ "message" ++ Str.dq ++ ":" ++ Str.dq ++ "Hello CI/CD World!" ++ Str.dq ++ "}".

(** The payload of [root], as a dictionary value. *)
Definition payload : pydict :=
  dict_display [("message", PyStr "Hello CI/CD World!")].

(** The route [@app.get("/")] registers for [root]. *)
Definition root_route : Route :=
  APIRoute_new "/" "root" root (Some ["GET"]).

(** The response the request handler builds from the payload. *)
Definition hello_response : Response :=
  JSONResponse payload 200 None.

(** The response to a method the route for [/] does not list. *)
Definition method_not_allowed_response : Response :=
  http_exception_handler 405 "Method Not Allowed" (Some [("Allow", "GET")]).

(** The response to a path no route matches, also with a slash added or
    removed. *)
Definition not_found_response : Response :=
  http_exception_handler 404 "Not Found" None.

(** The state after [root] ran in [s]: one more object on the heap. *)
Definition after_root (s : pystate) : pystate :=
  {| globals := globals s;
     heap := <[fresh (dom (heap s)) := ObjDict payload]> (heap s) |}.

(** A GET request to the path [/]. *)
Definition get_root (req : Request) : Prop :=
  method req = "GET" /\ path req = "/".

(** No registered route has a path pattern that accepts the request's
    path. *)
Definition unrouted (a : FastAPI.FastAPI) (req : Request) : Prop :=
  forall r, In r (routes a) -> path_regex_match (route_path r) (get_route_path req) = false.

(** Statuses 200 to 299. *)
Definition is_2xx (status : Z) : Prop := 200 <= status < 300.

(** The first route of a new [FastAPI] object whose path pattern accepts
    the request's path, if any. *)
Definition builtin_route_for (req : Request) : option Route :=
  List.find (fun r => path_regex_match (route_path r) (get_route_path req))
    (routes FastAPI_new).

(** The request [Router.app] tries when no route accepts the path: the
    same request with a final slash added, or with the final slashes
    removed. *)
Definition redirect_request (req : Request) : Request :=
  {| method := method req;
     path := if Str.ends_with_slash (get_route_path req) then Str.rstrip_slash (path req)
             else path req ++ "/";
     query_string := query_string req;
     scheme := scheme req;
     server := server req;
     headers := headers req;
     body_in := body_in req |}.

(** The response to a method a route of the framework does not list. *)
Definition builtin_not_allowed_response (r : Route) : Response :=
  http_exception_handler 405 "Method Not Allowed"
    (Some [("Allow", String.concat ", " (default [] (methods r)))]).

(** The body of the framework's error responses. *)
Definition detail_body (detail : string) : string :=
  "{" ++ Str.dq ++ "detail" ++ Str.dq ++ ":" ++ Str.dq ++ detail ++ Str.dq ++ "}".

(** What [app] answers, read off its route table: the framework's pages on
    their paths for GET and HEAD, the greeting for GET on the pattern of
    [/], status 405 for the other methods on those paths, and for any other
    path a redirection when adding or removing a final slash gives a routed
    path, status 404 otherwise. *)
Definition answer (req : Request) (s : pystate) : completion Reply :=
  let m := method req in
  match builtin_route_for req with
  | Some r =>
      if String.eqb m "GET" || String.eqb m "HEAD"
      then Returned (BuiltinPage (endpoint r)) s
      else Returned (HttpReply (builtin_not_allowed_response r)) s
  | None =>
      if path_regex_match "/" (get_route_path req) then
        if String.eqb m "GET"
        then Returned (HttpReply hello_response) (after_root s)
        else Returned (HttpReply method_not_allowed_response) s
      else if negb (String.eqb (get_route_path req) "/")
              && existsb (fun r => match matches r (redirect_request req) with
                                   | NONE => false
                                   | _ => true
                                   end) (routes Main.app)
      then Returned (HttpReply (RedirectResponse (URL_of_scope (redirect_request req)))) s
      else Returned (HttpReply not_found_response) s
  end.

(** The paths of the framework's pages and the functions that render
    them. *)
Definition builtin_pages : list (string * string) :=
  [("/openapi.json", "openapi"); ("/docs", "swagger_ui_html");
   ("/docs/oauth2-redirect", "swagger_ui_redirect"); ("/redoc", "redoc_html")].

End Main.

(** * Properties *)

Import Json Py Starlette FastAPI Main.

(** ** The handler *)

Lemma root_returns (s : pystate) :
  root s = Returned (fresh (dom (heap s))) (after_root s).
Proof. reflexivity. Qed.

Lemma fresh_not_allocated (s : pystate) : heap s !! fresh (dom (heap s)) = None.
Proof. apply not_elem_of_dom, is_fresh. Qed.

Lemma deref_after_root (s : pystate) :
  deref_dict (fresh (dom (heap s))) (after_root s) = Some payload.
Proof. unfold deref_dict, after_root; simpl. by rewrite lookup_insert_eq. Qed.

Lemma payload_items : payload = [("message", PyStr "Hello CI/CD World!")].
Proof. reflexivity. Qed.

(** ** Routing *)

Lemma routes_app :
  routes Main.app = (routes FastAPI_new ++ [root_route])%list.
Proof. reflexivity. Qed.

Lemma first_match_root (req : Request) :
  path req = "/" ->
  first_match (routes Main.app) req None
  = if String.eqb (method req) "GET" then inl root_route else inr (Some root_route).
Proof.
  destruct req as [m p q sc sv hs b]; simpl; intros ->.
  unfold first_match, matches, get_route_path, method_refused; simpl.
  change (Str.upper "GET") with "GET".
  rewrite orb_false_r. by destruct (String.eqb m "GET").
Qed.

Lemma refused_root_route (req : Request) :
  method_refused root_route req = negb (String.eqb (method req) "GET").
Proof.
  unfold method_refused. change (methods root_route) with (Some ["GET"]).
  simpl. by rewrite orb_false_r.
Qed.

Lemma handler_hello (req : Request) (s : pystate) :
  get_request_handler root req s = Returned (HttpReply hello_response) (after_root s).
Proof.
  unfold get_request_handler, bind. rewrite root_returns; simpl.
  by rewrite deref_after_root.
Qed.

Lemma call_get_root (req : Request) (s : pystate) :
  get_root req ->
  call Main.app req s = Returned (HttpReply hello_response) (after_root s).
Proof.
  intros [Hm Hp]. unfold call, catch, Router_app.
  rewrite (first_match_root req Hp), Hm; simpl.
  unfold handle. rewrite refused_root_route, Hm; simpl.
  change (Starlette.app root_route) with (get_request_handler root).
  by rewrite handler_hello.
Qed.

Lemma call_root_refused (req : Request) (s : pystate) :
  path req = "/" -> method req <> "GET" ->
  call Main.app req s = Returned (HttpReply method_not_allowed_response) s.
Proof.
  intros Hp Hm. apply String.eqb_neq in Hm.
  unfold call, catch, Router_app.
  rewrite (first_match_root req Hp), Hm.
  unfold handle. by rewrite refused_root_route, Hm.
Qed.

Lemma first_match_unrouted (routes : list Route) (req : Request) (partial : option Route) :
  (forall r, In r routes -> path_regex_match (route_path r) (get_route_path req) = false) ->
  first_match routes req partial = inr partial.
Proof.
  revert partial. induction routes as [|r routes IH]; intros partial Hno; [done|].
  simpl. unfold matches. rewrite (Hno r) by (by left).
  apply IH. intros r' Hr'. apply Hno. by right.
Qed.

Lemma call_unrouted (req : Request) (s : pystate) :
  unrouted Main.app req ->
  call Main.app req s = Returned (HttpReply not_found_response) s
  \/ exists url, call Main.app req s = Returned (HttpReply (RedirectResponse url)) s.
Proof.
  intros Hno. unfold call, catch, Router_app.
  rewrite (first_match_unrouted _ _ _ Hno).
  destruct (negb (String.eqb (get_route_path req) "/")); [|by left].
  match goal with |- context [existsb ?f ?l] => destruct (existsb f l) end.
  - right. eexists. reflexivity.
  - by left.
Qed.

Lemma api_route_table_app : api_route_table Main.app = [("GET", "/", "root")].
Proof. reflexivity. Qed.

(** ** The response to [GET /] *)

Lemma hello_response_fields :
  status_code hello_response = 200
  /\ body hello_response = compact_body
  /\ raw_headers hello_response
     = [("content-length", "32"); ("content-type", "application/json")].
Proof. by vm_compute. Qed.

Lemma compact_body_not_spec_body : compact_body <> spec_body.
Proof. by vm_compute. Qed.

(** With the separators [json.dumps] defaults to, the payload would be
    written the way the specification shows it. *)
Lemma spec_body_default_separators :
  dumps (fst default_separators) (snd default_separators) payload = spec_body.
Proof. reflexivity. Qed.

(** ** The claims *)

(** C1, as amended.  Every GET request to the path [/] is answered with
    status 200 and the body [{"message":"Hello CI/CD World!"}]: the payload
    with its one key, written with the compact separators of
    [JSONResponse.render], no space after the colon. *)
Theorem C1_get_root_status_and_body (req : Request) (s : pystate) :
  method req = "GET" -> path req = "/" ->
  exists r s',
    call Main.app req s = Returned (HttpReply r) s'
    /\ status_code r = 200
    /\ body r = compact_body.
Proof.
  intros Hm Hp. exists hello_response, (after_root s).
  rewrite call_get_root by done.
  by destruct hello_response_fields as (-> & -> & _).
Qed.

Lemma C1_get_root_witness :
  method (request "GET" "/" [] "") = "GET"
  /\ path (request "GET" "/" [] "") = "/"
  /\ exists r s',
       call Main.app (request "GET" "/" [] "") empty_state = Returned (HttpReply r) s'
       /\ status_code r = 200
       /\ body r = compact_body.
Proof.
  split; [reflexivity|]. split; [reflexivity|].
  apply (C1_get_root_status_and_body (request "GET" "/" [] "") empty_state); reflexivity.
Defined.

(** C1, as stated, fails on the request [GET /] with no headers and no
    body: the status is 200, but the body is not the byte string of the
    specification, which has a space after the colon. *)
Lemma C1_spec_body_counterexample :
  ~ exists r s',
      call Main.app (request "GET" "/" [] "") empty_state = Returned (HttpReply r) s'
      /\ status_code r = 200
      /\ body r = spec_body.
Proof.
  intros (r & s' & Hcall & _ & Hbody).
  rewrite call_get_root in Hcall by (by split).
  injection Hcall as <- _.
  destruct hello_response_fields as (_ & Hb & _).
  rewrite Hb in Hbody. by apply compact_body_not_spec_body.
Qed.

(** C2.  Whatever the state it is called in, [root] returns a dictionary
    whose only key is [message], bound to the string
    [Hello CI/CD World!]. *)
Theorem C2_root_returns_message_dict (s : pystate) :
  exists l s' d,
    root s = Returned l s'
    /\ deref_dict l s' = Some d
    /\ dict_keys d = ["message"]
    /\ dict_get d "message" = Some (PyStr "Hello CI/CD World!")
    /\ (list_to_map d : gmap string pyval) = {[ "message" := PyStr "Hello CI/CD World!" ]}.
Proof.
  exists (fresh (dom (heap s))), (after_root s), payload.
  split; [apply root_returns|]. split; [apply deref_after_root|].
  rewrite payload_items. by repeat split.
Qed.

(** C3.  Requests [GET /] served one after the other, whatever their
    headers and bodies and however many they are, all get the same
    response; and in any two states [root] returns the same dictionary. *)
Theorem C3_get_root_identical_responses (reqs : list Request) (s s2 : pystate) :
  Forall get_root reqs ->
  (exists s',
     call_all Main.app reqs s
     = Returned (replicate (length reqs) (HttpReply hello_response)) s')
  /\ (exists l l2 s' s2',
        root s = Returned l s' /\ root s2 = Returned l2 s2'
        /\ deref_dict l s' = Some payload /\ deref_dict l2 s2' = Some payload).
Proof.
  intros Hall. split.
  - revert s. induction Hall as [|req reqs Hreq _ IH]; intros s.
    + by exists s.
    + destruct (IH (after_root s)) as [s' Hs'].
      exists s'. simpl. unfold bind at 1.
      rewrite call_get_root by done. simpl.
      unfold bind at 1. rewrite Hs'. reflexivity.
  - exists (fresh (dom (heap s))), (fresh (dom (heap s2))), (after_root s), (after_root s2).
    repeat split; apply deref_after_root.
Qed.

Lemma C3_identical_responses_witness :
  Forall get_root
    [request "GET" "/" [] ""; request "GET" "/" [("accept", "*/*")] "x";
     request "GET" "/" [] ""]
  /\ (exists s',
        call_all Main.app
          [request "GET" "/" [] ""; request "GET" "/" [("accept", "*/*")] "x";
           request "GET" "/" [] ""] empty_state
        = Returned (replicate 3 (HttpReply hello_response)) s').
Proof.
  split.
  - repeat constructor.
  - apply (C3_get_root_identical_responses
             [request "GET" "/" [] ""; request "GET" "/" [("accept", "*/*")] "x";
              request "GET" "/" [] ""] empty_state empty_state).
    repeat constructor.
Defined.

(** C4.  The response to [GET /] has the header
    [content-type: application/json], and its body is the rendering, by
    [JSONResponse.render], of the dictionary [root] returned. *)
Theorem C4_get_root_content_type_json (req : Request) (s : pystate) :
  method req = "GET" -> path req = "/" ->
  exists r l s' d,
    call Main.app req s = Returned (HttpReply r) s'
    /\ root s = Returned l s'
    /\ deref_dict l s' = Some d
    /\ body r = JSONResponse_render d
    /\ header_get (raw_headers r) "content-type" = Some "application/json".
Proof.
  intros Hm Hp.
  exists hello_response, (fresh (dom (heap s))), (after_root s), payload.
  rewrite call_get_root by done.
  repeat split. apply deref_after_root.
Qed.

Lemma C4_content_type_witness :
  method (request "GET" "/" [] "") = "GET"
  /\ path (request "GET" "/" [] "") = "/"
  /\ exists r l s' d,
       call Main.app (request "GET" "/" [] "") empty_state = Returned (HttpReply r) s'
       /\ root empty_state = Returned l s'
       /\ deref_dict l s' = Some d
       /\ body r = JSONResponse_render d
       /\ header_get (raw_headers r) "content-type" = Some "application/json".
Proof.
  split; [reflexivity|]. split; [reflexivity|].
  apply (C4_get_root_content_type_json (request "GET" "/" [] "") empty_state); reflexivity.
Defined.

(** C5.  A call of [root] changes nothing that was there before it: the
    global names are the same, the dictionary it returns is a new object,
    and every object of the heap it was called in is still there,
    unchanged; once the new dictionary is dropped the heap is the one
    before the call. *)
Theorem C5_root_no_side_effect (s : pystate) :
  exists l s',
    root s = Returned l s'
    /\ heap s !! l = None
    /\ globals s' = globals s
    /\ delete l (heap s') = heap s
    /\ (forall l', is_Some (heap s !! l') -> heap s' !! l' = heap s !! l').
Proof.
  exists (fresh (dom (heap s))), (after_root s).
  pose proof (fresh_not_allocated s) as Hfresh.
  split; [apply root_returns|]. split; [done|]. split; [done|]. split.
  - simpl. rewrite delete_insert_eq. by apply delete_id.
  - intros l' [o Ho]. simpl. apply lookup_insert_ne. congruence.
Qed.

(** C6.  A request whose path no registered route accepts is answered by
    the framework, with status 404, or 307 when the path with a slash
    added or removed is routed: never a 2xx status.  The state is left as
    it was, and the application has no handler for that path. *)
Theorem C6_unrouted_path_not_2xx (req : Request) (s : pystate) :
  unrouted Main.app req ->
  exists r,
    call Main.app req s = Returned (HttpReply r) s
    /\ (status_code r = 404 \/ status_code r = 307)
    /\ ~ is_2xx (status_code r)
    /\ (forall m e, ~ In (m, path req, e) (api_route_table Main.app)).
Proof.
  intros Hno.
  assert (Htable : forall m e, ~ In (m, path req, e) (api_route_table Main.app)).
  { intros m e. rewrite api_route_table_app. intros [Heq|[]].
    injection Heq as _ Hp _.
    specialize (Hno root_route). rewrite routes_app in Hno.
    assert (Hin : In root_route (routes FastAPI_new ++ [root_route])).
    { apply in_or_app. right. by left. }
    specialize (Hno Hin). unfold get_route_path in Hno. rewrite <- Hp in Hno.
    discriminate Hno. }
  destruct (call_unrouted req s Hno) as [Hcall|[url Hcall]].
  - exists not_found_response. split; [done|]. split; [by left|]. split; [|done].
    unfold is_2xx. change (status_code not_found_response) with 404. lia.
  - exists (RedirectResponse url). split; [done|]. split; [by right|]. split; [|done].
    unfold is_2xx. change (status_code (RedirectResponse url)) with 307. lia.
Qed.

Lemma C6_missing_witness :
  unrouted Main.app (request "GET" "/missing" [] "")
  /\ exists r,
       call Main.app (request "GET" "/missing" [] "") empty_state
       = Returned (HttpReply r) empty_state
       /\ (status_code r = 404 \/ status_code r = 307)
       /\ ~ is_2xx (status_code r)
       /\ (forall m e, ~ In (m, "/missing", e) (api_route_table Main.app)).
Proof.
  assert (H : unrouted Main.app (request "GET" "/missing" [] "")).
  { intros r Hr. simpl in Hr.
    repeat (destruct Hr as [<-|Hr]; [reflexivity|]). destruct Hr. }
  split; [exact H|].
  exact (C6_unrouted_path_not_2xx (request "GET" "/missing" [] "") empty_state H).
Defined.

(** The request [GET /missing] gets the not-found response, status 404. *)
Example get_missing_is_404 :
  call Main.app (request "GET" "/missing" [] "") empty_state
  = Returned (HttpReply not_found_response) empty_state
  /\ status_code not_found_response = 404.
Proof. by vm_compute. Qed.

(** A path that differs from a routed one by a final slash is redirected. *)
Example get_docs_slash_is_307 :
  exists r,
    call Main.app (request "GET" "/docs/" [] "") empty_state
    = Returned (HttpReply r) empty_state
    /\ status_code r = 307
    /\ header_get (raw_headers r) "location" = Some "http://127.0.0.1:8000/docs".
Proof. eexists. by vm_compute. Qed.

Lemma method_not_allowed_fields :
  status_code method_not_allowed_response = 405
  /\ header_get (raw_headers method_not_allowed_response) "allow" = Some "GET".
Proof. by vm_compute. Qed.

(** C7.  Every POST request to the path [/] is answered with status 405,
    Method Not Allowed, and the header [allow: GET]; no application
    handler is registered for POST on [/], and the state is left as it
    was. *)
Theorem C7_post_root_method_not_allowed (req : Request) (s : pystate) :
  method req = "POST" -> path req = "/" ->
  exists r,
    call Main.app req s = Returned (HttpReply r) s
    /\ status_code r = 405
    /\ header_get (raw_headers r) "allow" = Some "GET"
    /\ (forall e, ~ In ("POST", "/", e) (api_route_table Main.app)).
Proof.
  intros Hm Hp. exists method_not_allowed_response.
  rewrite call_root_refused by (by rewrite ?Hm).
  destruct method_not_allowed_fields as [-> ->].
  repeat split. intros e. rewrite api_route_table_app. by intros [?|[]].
Qed.

Lemma C7_post_root_witness :
  method (request "POST" "/" [] "") = "POST"
  /\ path (request "POST" "/" [] "") = "/"
  /\ exists r,
       call Main.app (request "POST" "/" [] "") empty_state
       = Returned (HttpReply r) empty_state
       /\ status_code r = 405
       /\ header_get (raw_headers r) "allow" = Some "GET"
       /\ (forall e, ~ In ("POST", "/", e) (api_route_table Main.app)).
Proof.
  split; [reflexivity|]. split; [reflexivity|].
  apply (C7_post_root_method_not_allowed (request "POST" "/" [] "") empty_state);
    reflexivity.
Defined.

(** C8.  The application adds exactly one route to those a new [FastAPI]
    object has: path [/], method GET only, endpoint [root], run through the
    request handler built on [root].  The routes the object starts with
    are the framework's own, so (GET, [/]) mapped to [root] is the only
    (method, path) pair mapped to an application handler. *)
Theorem C8_single_application_route :
  exists r,
    routes Main.app = (routes FastAPI_new ++ [r])%list
    /\ route_path r = "/"
    /\ methods r = Some ["GET"]
    /\ endpoint r = "root"
    /\ is_api_route r = true
    /\ Starlette.app r = get_request_handler root
    /\ Forall (fun r' => is_api_route r' = false) (routes FastAPI_new)
    /\ api_route_table Main.app = [("GET", "/", "root")].
Proof.
  exists root_route. repeat split. repeat constructor.
Qed.

(** C9.  A call of [root] completes, in any state, by returning: it does
    not raise, and it is not suspended at any [await], so it completes
    without ever being resumed. *)
Theorem C9_root_total (s : pystate) :
  (exists l s', root s = Returned l s')
  /\ (forall e s', root s <> Raised e s')
  /\ (forall k, root s <> Awaiting k)
  /\ suspensions 0 s (root s) = Some 0%nat.
Proof.
  rewrite root_returns. split; [by eauto|]. by repeat split.
Qed.

(** C10, as amended.  Every HEAD request to the path [/] is rejected with
    status 405, Method Not Allowed, and the header [allow: GET]: the GET
    decorator of [FastAPI] registers the method GET alone.  HEAD goes with
    GET only on the framework's own routes. *)
Theorem C10_head_root_method_not_allowed (req : Request) (s : pystate) :
  method req = "HEAD" -> path req = "/" ->
  exists r,
    call Main.app req s = Returned (HttpReply r) s
    /\ status_code r = 405
    /\ header_get (raw_headers r) "allow" = Some "GET"
    /\ (forall e, ~ In ("HEAD", "/", e) (api_route_table Main.app)).
Proof.
  intros Hm Hp. exists method_not_allowed_response.
  rewrite call_root_refused by (by rewrite ?Hm).
  destruct method_not_allowed_fields as [-> ->].
  repeat split. intros e. rewrite api_route_table_app. by intros [?|[]].
Qed.

Lemma C10_head_root_witness :
  method (request "HEAD" "/" [] "") = "HEAD"
  /\ path (request "HEAD" "/" [] "") = "/"
  /\ exists r,
       call Main.app (request "HEAD" "/" [] "") empty_state
       = Returned (HttpReply r) empty_state
       /\ status_code r = 405
       /\ header_get (raw_headers r) "allow" = Some "GET"
       /\ (forall e, ~ In ("HEAD", "/", e) (api_route_table Main.app)).
Proof.
  split; [reflexivity|]. split; [reflexivity|].
  apply (C10_head_root_method_not_allowed (request "HEAD" "/" [] "") empty_state);
    reflexivity.
Defined.

(** C10, as stated, fails on the request [HEAD /] with no headers and no
    body: it is not accepted, and HEAD is not mapped to [root]. *)
Lemma C10_head_accepted_counterexample :
  ~ ((exists reply s',
        call Main.app (request "HEAD" "/" [] "") empty_state = Returned reply s'
        /\ reply <> HttpReply method_not_allowed_response)
     \/ In ("HEAD", "/", "root") (api_route_table Main.app)).
Proof.
  intros [(reply & s' & Hcall & Hne)|Hin].
  - rewrite call_root_refused in Hcall by done.
    injection Hcall as <- _. by apply Hne.
  - rewrite api_route_table_app in Hin. by destruct Hin as [?|[]].
Qed.

(** On the framework's own routes HEAD is accepted along with GET. *)
Example head_docs_is_accepted :
  call Main.app (request "HEAD" "/docs" [] "") empty_state
  = Returned (BuiltinPage "swagger_ui_html") empty_state.
Proof. reflexivity. Qed.

(** ** The whole route table *)

Lemma matches_builtin (r : Route) (req : Request) :
  In r (routes FastAPI_new) ->
  matches r req
  = if path_regex_match (route_path r) (get_route_path req)
    then (if String.eqb (method req) "GET" || String.eqb (method req) "HEAD"
          then FULL else PARTIAL)
    else NONE.
Proof.
  intros Hr. unfold matches, method_refused.
  assert (Hm : methods r = Some ["GET"; "HEAD"]).
  { simpl in Hr. repeat (destruct Hr as [<-|Hr]; [reflexivity|]). destruct Hr. }
  rewrite Hm. simpl. rewrite orb_false_r.
  by repeat case_match.
Qed.

Lemma matches_root_route (req : Request) :
  matches root_route req
  = if path_regex_match "/" (get_route_path req)
    then (if String.eqb (method req) "GET" then FULL else PARTIAL)
    else NONE.
Proof.
  unfold matches. rewrite refused_root_route.
  change (route_path root_route) with "/".
  by repeat case_match.
Qed.

Lemma first_match_app (l1 l2 : list Route) (req : Request) (partial : option Route) :
  first_match (l1 ++ l2) req partial
  = match first_match l1 req partial with
    | inl r => inl r
    | inr partial' => first_match l2 req partial'
    end.
Proof.
  revert partial. induction l1 as [|r l1 IH]; intros partial; [done|].
  simpl. destruct (matches r req); by rewrite ?IH.
Qed.

Lemma first_match_builtin (l : list Route) (req : Request) (partial : option Route) :
  (forall r, In r l -> In r (routes FastAPI_new)) ->
  first_match l req partial
  = match List.find (fun r => path_regex_match (route_path r) (get_route_path req)) l with
    | Some r =>
        if String.eqb (method req) "GET" || String.eqb (method req) "HEAD"
        then inl r
        else inr (match partial with None => Some r | _ => partial end)
    | None => inr partial
    end.
Proof.
  revert partial. induction l as [|r l IH]; intros partial Hl; [done|].
  simpl. rewrite matches_builtin by (apply Hl; by left).
  assert (Hl' : forall r', In r' l -> In r' (routes FastAPI_new))
    by (intros r' Hr'; apply Hl; by right).
  destruct (path_regex_match (route_path r) (get_route_path req)).
  - destruct (String.eqb (method req) "GET" || String.eqb (method req) "HEAD") eqn:Hm;
      [done|].
    rewrite IH by done. by repeat case_match.
  - by apply IH.
Qed.

Lemma handle_builtin (r : Route) (req : Request) (s : pystate) :
  In r (routes FastAPI_new) ->
  handle r req s
  = if String.eqb (method req) "GET" || String.eqb (method req) "HEAD"
    then Returned (BuiltinPage (endpoint r)) s
    else Raised (HTTPException 405 "Method Not Allowed"
                   (Some [("Allow", String.concat ", " (default [] (methods r)))])) s.
Proof.
  intros Hr. unfold handle, method_refused.
  assert (Hm : methods r = Some ["GET"; "HEAD"]
               /\ Starlette.app r req s = Returned (BuiltinPage (endpoint r)) s).
  { simpl in Hr. repeat (destruct Hr as [<-|Hr]; [by split|]). destruct Hr. }
  destruct Hm as [Hm Happ]. rewrite Hm. simpl. rewrite orb_false_r.
  destruct (String.eqb (method req) "GET"), (String.eqb (method req) "HEAD");
    simpl; by rewrite ?Happ.
Qed.

(** [app] answers every request the way its route table reads. *)
Lemma first_match_routes_app (req : Request) :
  first_match (routes Main.app) req None
  = match builtin_route_for req with
    | Some r =>
        if String.eqb (method req) "GET" || String.eqb (method req) "HEAD"
        then inl r else inr (Some r)
    | None =>
        if path_regex_match "/" (get_route_path req)
        then (if String.eqb (method req) "GET" then inl root_route
              else inr (Some root_route))
        else inr None
    end.
Proof.
  unfold builtin_route_for.
  rewrite routes_app, first_match_app, first_match_builtin by done.
  destruct (List.find _ (routes FastAPI_new)) as [r|].
  - destruct (String.eqb (method req) "GET" || String.eqb (method req) "HEAD") eqn:Hm;
      [done|].
    apply orb_false_iff in Hm as [HG _].
    simpl. rewrite matches_root_route, HG. by repeat case_match.
  - simpl. rewrite matches_root_route. by repeat case_match.
Qed.

(** [app] answers every request the way its route table reads. *)
Lemma call_answer (req : Request) (s : pystate) :
  call Main.app req s = answer req s.
Proof.
  unfold call, catch, Router_app, answer.
  rewrite first_match_routes_app.
  destruct (builtin_route_for req) as [r|] eqn:Hfind.
  - apply find_some in Hfind as [Hr _].
    destruct (String.eqb (method req) "GET" || String.eqb (method req) "HEAD") eqn:Hm;
      rewrite handle_builtin, Hm by done; reflexivity.
  - destruct (path_regex_match "/" (get_route_path req)).
    + destruct (String.eqb (method req) "GET") eqn:HG.
      * unfold handle. rewrite refused_root_route, HG. simpl.
        change (Starlette.app root_route) with (get_request_handler root).
        by rewrite handler_hello.
      * unfold handle. by rewrite refused_root_route, HG.
    + unfold redirect_request. cbv zeta.
      destruct (negb (String.eqb (get_route_path req) "/")); [|done].
      by destruct (existsb _ (routes Main.app)).
Qed.

Lemma status_http_exception_handler (status : Z) (detail : string)
    (hdrs : option (list (string * string))) :
  status_code (http_exception_handler status detail hdrs) = status.
Proof. unfold http_exception_handler. by case_match. Qed.

Lemma methods_builtin (r : Route) :
  In r (routes FastAPI_new) -> methods r = Some ["GET"; "HEAD"].
Proof.
  intros Hr. simpl in Hr.
  repeat (destruct Hr as [<-|Hr]; [reflexivity|]). destruct Hr.
Qed.

(** The six ways a request is answered. *)
Lemma call_cases (req : Request) (s : pystate) :
  (exists r, In r (routes FastAPI_new)
     /\ path_regex_match (route_path r) (path req) = true
     /\ (method req = "GET" \/ method req = "HEAD")
     /\ call Main.app req s = Returned (BuiltinPage (endpoint r)) s)
  \/ (exists r, In r (routes FastAPI_new)
        /\ path_regex_match (route_path r) (path req) = true
        /\ call Main.app req s = Returned (HttpReply (builtin_not_allowed_response r)) s)
  \/ (method req = "GET" /\ path_regex_match "/" (path req) = true
      /\ call Main.app req s = Returned (HttpReply hello_response) (after_root s))
  \/ (method req <> "GET" /\ path_regex_match "/" (path req) = true
      /\ call Main.app req s = Returned (HttpReply method_not_allowed_response) s)
  \/ (path_regex_match "/" (path req) = false
      /\ call Main.app req s = Returned (HttpReply not_found_response) s)
  \/ (path_regex_match "/" (path req) = false
      /\ exists url, call Main.app req s = Returned (HttpReply (RedirectResponse url)) s).
Proof.
  rewrite call_answer. unfold answer, get_route_path.
  destruct (builtin_route_for req) as [r|] eqn:Hfind.
  - apply find_some in Hfind as [Hr Hp]. unfold get_route_path in Hp.
    destruct (String.eqb (method req) "GET") eqn:HG; simpl.
    { apply String.eqb_eq in HG. left. exists r. by eauto 6. }
    destruct (String.eqb (method req) "HEAD") eqn:HH.
    { apply String.eqb_eq in HH. left. exists r. by eauto 6. }
    right; left. by exists r.
  - destruct (path_regex_match "/" (path req)) eqn:Hp.
    + destruct (String.eqb (method req) "GET") eqn:HG.
      * apply String.eqb_eq in HG. by right; right; left.
      * apply String.eqb_neq in HG. by right; right; right; left.
    + case_match.
      * do 5 right. split; [done|]. by eexists.
      * by right; right; right; right; left.
Qed.

Lemma builtin_not_allowed_fields (r : Route) :
  In r (routes FastAPI_new) ->
  status_code (builtin_not_allowed_response r) = 405
  /\ body (builtin_not_allowed_response r) = detail_body "Method Not Allowed"
  /\ is_Some (header_get (raw_headers (builtin_not_allowed_response r)) "allow")
  /\ header_get (raw_headers (builtin_not_allowed_response r)) "content-length"
     = Some (Str.of_nat (String.length (body (builtin_not_allowed_response r))))
  /\ header_get (raw_headers (builtin_not_allowed_response r)) "content-type"
     = Some "application/json".
Proof.
  intros Hr. unfold builtin_not_allowed_response.
  rewrite (methods_builtin r Hr). vm_compute. by eauto 10.
Qed.

Lemma error_response_fields :
  (status_code method_not_allowed_response = 405
   /\ body method_not_allowed_response = detail_body "Method Not Allowed"
   /\ header_get (raw_headers method_not_allowed_response) "allow" = Some "GET"
   /\ header_get (raw_headers method_not_allowed_response) "content-length"
      = Some (Str.of_nat (String.length (body method_not_allowed_response)))
   /\ header_get (raw_headers method_not_allowed_response) "content-type"
      = Some "application/json")
  /\ (status_code not_found_response = 404
      /\ body not_found_response = detail_body "Not Found"
      /\ header_get (raw_headers not_found_response) "allow" = None
      /\ header_get (raw_headers not_found_response) "content-length"
         = Some (Str.of_nat (String.length (body not_found_response)))
      /\ header_get (raw_headers not_found_response) "content-type"
         = Some "application/json")
  /\ (header_get (raw_headers hello_response) "content-length"
      = Some (Str.of_nat (String.length (body hello_response)))
      /\ header_get (raw_headers hello_response) "content-type" = Some "application/json").
Proof. by vm_compute. Qed.

Lemma redirect_fields (url : string) :
  status_code (RedirectResponse url) = 307
  /\ body (RedirectResponse url) = ""
  /\ header_get (raw_headers (RedirectResponse url)) "content-length" = Some "0"
  /\ header_get (raw_headers (RedirectResponse url)) "location"
     = Some (quote (":/%#?=@[]!$&'()*+,;") url).
Proof. by repeat split. Qed.



(** ** Further properties of the application *)

(** X1.  On the path [/] every method other than GET is refused: status
    405, the header [allow: GET], the JSON body naming the error, and
    [root] is not run. *)
Theorem root_path_only_accepts_get (req : Request) (s : pystate) :
  path req = "/" -> method req <> "GET" ->
  exists r,
    call Main.app req s = Returned (HttpReply r) s
    /\ status_code r = 405
    /\ header_get (raw_headers r) "allow" = Some "GET"
    /\ body r = detail_body "Method Not Allowed".
Proof.
  intros Hp Hm. exists method_not_allowed_response.
  rewrite call_root_refused by done.
  destruct error_response_fields as ((-> & -> & -> & _) & _). done.
Qed.

Lemma root_path_only_accepts_get_witness :
  path (request "DELETE" "/" [] "") = "/"
  /\ method (request "DELETE" "/" [] "") <> "GET"
  /\ exists r,
       call Main.app (request "DELETE" "/" [] "") empty_state
       = Returned (HttpReply r) empty_state
       /\ status_code r = 405
       /\ header_get (raw_headers r) "allow" = Some "GET"
       /\ body r = detail_body "Method Not Allowed".
Proof.
  split; [reflexivity|]. split; [discriminate|].
  apply (root_path_only_accepts_get (request "DELETE" "/" [] "") empty_state);
    [reflexivity|discriminate].
Defined.

(** X2.  Among the responses the application builds itself (all but the
    framework's own pages), status 200 is sent only to a GET request whose
    path the pattern of [/] accepts, that is [/] or [/] followed by a line
    feed; the response is then the greeting, and [root] has run once. *)
Theorem ok_only_for_get_root (req : Request) (s s' : pystate) (r : Response) :
  call Main.app req s = Returned (HttpReply r) s' ->
  status_code r = 200 ->
  method req = "GET"
  /\ (path req = "/" \/ path req = "/" ++ Str.lf)
  /\ r = hello_response
  /\ s' = after_root s.
Proof.
  intros Hcall Hst.
  destruct (call_cases req s)
    as [(r0 & _ & _ & _ & H)|[(r0 & Hr0 & _ & H)|[(Hm & Hp & H)|[(_ & _ & H)|
        [(_ & H)|(_ & url & H)]]]]];
    rewrite H in Hcall; try discriminate Hcall; injection Hcall as <- <-.
  - destruct (builtin_not_allowed_fields r0 Hr0) as (Hst' & _). congruence.
  - split; [done|]. split; [|done].
    unfold path_regex_match in Hp. apply orb_true_iff in Hp.
    destruct Hp as [Hp|Hp]; apply String.eqb_eq in Hp; [by left|by right].
  - discriminate Hst.
  - discriminate Hst.
  - discriminate Hst.
Qed.

Lemma ok_only_for_get_root_witness :
  call Main.app (request "GET" "/" [] "") empty_state
  = Returned (HttpReply hello_response) (after_root empty_state)
  /\ status_code hello_response = 200
  /\ method (request "GET" "/" [] "") = "GET".
Proof.
  assert (H1 : call Main.app (request "GET" "/" [] "") empty_state
               = Returned (HttpReply hello_response) (after_root empty_state))
    by reflexivity.
  assert (H2 : status_code hello_response = 200) by reflexivity.
  split; [exact H1|]. split; [exact H2|].
  exact (proj1 (ok_only_for_get_root (request "GET" "/" [] "") empty_state
                  (after_root empty_state) hello_response H1 H2)).
Defined.

(** The pattern of [/] does accept a final line feed: such a path, which a
    client sends as [/%0A], is answered like [/]. *)
Example get_root_line_feed :
  call Main.app (request "GET" ("/" ++ Str.lf) [] "") empty_state
  = Returned (HttpReply hello_response) (after_root empty_state).
Proof. reflexivity. Qed.


(** X4.  Every response the application builds announces its body
    exactly: the [content-length] header is the decimal length of the
    body. *)
Theorem content_length_is_body_length (req : Request) (s s' : pystate) (r : Response) :
  call Main.app req s = Returned (HttpReply r) s' ->
  header_get (raw_headers r) "content-length"
  = Some (Str.of_nat (String.length (body r))).
Proof.
  intros Hcall.
  destruct (call_cases req s)
    as [(r0 & _ & _ & _ & H)|[(r0 & Hr0 & _ & H)|[(_ & _ & H)|[(_ & _ & H)|
        [(_ & H)|(_ & url & H)]]]]];
    rewrite H in Hcall; try discriminate Hcall; injection Hcall as <- <-.
  - by destruct (builtin_not_allowed_fields r0 Hr0) as (_ & _ & _ & ? & _).
  - by destruct error_response_fields as (_ & _ & ? & _).
  - by destruct error_response_fields as ((_ & _ & _ & ? & _) & _).
  - by destruct error_response_fields as (_ & (_ & _ & _ & ? & _) & _).
  - reflexivity.
Qed.

Lemma content_length_witness :
  call Main.app (request "GET" "/missing" [] "") empty_state
  = Returned (HttpReply not_found_response) empty_state
  /\ header_get (raw_headers not_found_response) "content-length" = Some "22"
  /\ String.length (body not_found_response) = 22%nat.
Proof.
  assert (H : call Main.app (request "GET" "/missing" [] "") empty_state
              = Returned (HttpReply not_found_response) empty_state)
    by reflexivity.
  split; [exact H|]. split; [|reflexivity].
  exact (content_length_is_body_length (request "GET" "/missing" [] "") empty_state
           empty_state not_found_response H).
Defined.

(** X5.  Every response the application builds, the redirection apart,
    is JSON: the greeting and the error responses alike carry
    [content-type: application/json]. *)
Theorem responses_are_json (req : Request) (s s' : pystate) (r : Response) :
  call Main.app req s = Returned (HttpReply r) s' ->
  status_code r <> 307 ->
  header_get (raw_headers r) "content-type" = Some "application/json".
Proof.
  intros Hcall Hst.
  destruct (call_cases req s)
    as [(r0 & _ & _ & _ & H)|[(r0 & Hr0 & _ & H)|[(_ & _ & H)|[(_ & _ & H)|
        [(_ & H)|(_ & url & H)]]]]];
    rewrite H in Hcall; try discriminate Hcall; injection Hcall as <- <-.
  - by destruct (builtin_not_allowed_fields r0 Hr0) as (_ & _ & _ & _ & ?).
  - by destruct error_response_fields as (_ & _ & _ & ?).
  - by destruct error_response_fields as ((_ & _ & _ & _ & ?) & _).
  - by destruct error_response_fields as (_ & (_ & _ & _ & _ & ?) & _).
  - by destruct Hst.
Qed.

Lemma responses_are_json_witness :
  call Main.app (request "PUT" "/" [] "") empty_state
  = Returned (HttpReply method_not_allowed_response) empty_state
  /\ status_code method_not_allowed_response <> 307
  /\ header_get (raw_headers method_not_allowed_response) "content-type"
     = Some "application/json".
Proof.
  assert (H1 : call Main.app (request "PUT" "/" [] "") empty_state
               = Returned (HttpReply method_not_allowed_response) empty_state)
    by reflexivity.
  assert (H2 : status_code method_not_allowed_response <> 307) by discriminate.
  split; [exact H1|]. split; [exact H2|].
  exact (responses_are_json (request "PUT" "/" [] "") empty_state empty_state
           method_not_allowed_response H1 H2).
Defined.

(** X6.  Registering [root] on [/] leaves the framework's own pages in
    place: the OpenAPI schema and the documentation pages are served on
    their paths for GET and HEAD, and [root] is not run. *)
Theorem builtin_pages_served (req : Request) (s : pystate) (page : string) :
  In (path req, page) builtin_pages ->
  method req = "GET" \/ method req = "HEAD" ->
  call Main.app req s = Returned (BuiltinPage page) s.
Proof.
  intros Hin Hm. rewrite call_answer. unfold answer.
  assert (HGH : String.eqb (method req) "GET" || String.eqb (method req) "HEAD" = true).
  { destruct Hm as [->| ->]; reflexivity. }
  rewrite HGH. unfold builtin_route_for, get_route_path.
  simpl in Hin.
  repeat (destruct Hin as [Heq|Hin];
          [injection Heq as <- <-; reflexivity|]).
  destruct Hin.
Qed.

Lemma builtin_pages_served_witness :
  In (path (request "GET" "/docs" [] ""), "swagger_ui_html") builtin_pages
  /\ (method (request "GET" "/docs" [] "") = "GET"
      \/ method (request "GET" "/docs" [] "") = "HEAD")
  /\ call Main.app (request "GET" "/docs" [] "") empty_state
     = Returned (BuiltinPage "swagger_ui_html") empty_state.
Proof.
  assert (H1 : In (path (request "GET" "/docs" [] ""), "swagger_ui_html") builtin_pages)
    by (simpl; tauto).
  assert (H2 : method (request "GET" "/docs" [] "") = "GET"
               \/ method (request "GET" "/docs" [] "") = "HEAD")
    by (left; reflexivity).
  split; [exact H1|]. split; [exact H2|].
  exact (builtin_pages_served (request "GET" "/docs" [] "") empty_state
           "swagger_ui_html" H1 H2).
Defined.

(** X7.  The error responses name the error in a JSON body: status 404
    comes with [{"detail":"Not Found"}] and no [allow] header, status 405
    with [{"detail":"Method Not Allowed"}] and an [allow] header. *)
Theorem error_bodies (req : Request) (s s' : pystate) (r : Response) :
  call Main.app req s = Returned (HttpReply r) s' ->
  (status_code r = 404 ->
   body r = detail_body "Not Found" /\ header_get (raw_headers r) "allow" = None)
  /\ (status_code r = 405 ->
      body r = detail_body "Method Not Allowed"
      /\ is_Some (header_get (raw_headers r) "allow")).
Proof.
  intros Hcall.
  destruct (call_cases req s)
    as [(r0 & _ & _ & _ & H)|[(r0 & Hr0 & _ & H)|[(_ & _ & H)|[(_ & _ & H)|
        [(_ & H)|(_ & url & H)]]]]];
    rewrite H in Hcall; try discriminate Hcall; injection Hcall as <- <-.
  - destruct (builtin_not_allowed_fields r0 Hr0) as (Hst & Hb & Ha & _).
    split; intros Hs; [congruence|done].
  - split; intros Hs; discriminate Hs.
  - destruct error_response_fields as ((Hst & Hb & Ha & _) & _).
    split; intros Hs; [congruence|]. split; [done|]. rewrite Ha. by eexists.
  - destruct error_response_fields as (_ & (Hst & Hb & Ha & _) & _).
    split; intros Hs; [done|congruence].
  - split; intros Hs; discriminate Hs.
Qed.

Lemma error_bodies_witness :
  call Main.app (request "GET" "/missing" [] "") empty_state
  = Returned (HttpReply not_found_response) empty_state
  /\ (status_code not_found_response = 404 ->
      body not_found_response = detail_body "Not Found"
      /\ header_get (raw_headers not_found_response) "allow" = None).
Proof.
  assert (H : call Main.app (request "GET" "/missing" [] "") empty_state
              = Returned (HttpReply not_found_response) empty_state)
    by reflexivity.
  split; [exact H|].
  exact (proj1 (error_bodies (request "GET" "/missing" [] "") empty_state empty_state
                  not_found_response H)).
Defined.


Lemma matches_inputs (r : Route) (req1 req2 : Request) :
  method req1 = method req2 -> path req1 = path req2 ->
  matches r req1 = matches r req2.
Proof.
  intros Hm Hp. unfold matches, method_refused, get_route_path. by rewrite Hm, Hp.
Qed.

Lemma answer_inputs (req1 req2 : Request) :
  method req1 = method req2 -> path req1 = path req2 ->
  builtin_route_for req1 = builtin_route_for req2.
Proof.
  intros _ Hp. unfold builtin_route_for, get_route_path. by rewrite Hp.
Qed.

Lemma redirect_matches (req1 req2 : Request) :
  method req1 = method req2 -> path req1 = path req2 ->
  existsb (fun r => match matches r (redirect_request req1) with
                    | NONE => false
                    | _ => true
                    end) (routes Main.app)
  = existsb (fun r => match matches r (redirect_request req2) with
                      | NONE => false
                      | _ => true
                      end) (routes Main.app).
Proof.
  intros Hm Hp. induction (routes Main.app) as [|r l IH]; [done|].
  simpl. rewrite IH.
  rewrite (matches_inputs r (redirect_request req1) (redirect_request req2)); [done|done|].
  unfold redirect_request, get_route_path; simpl. by rewrite Hp.
Qed.

(** X9.  The response depends on the method and the path alone: two
    requests that agree on them, whatever their query strings, headers,
    bodies, schemes and server addresses, get the same reply in the same
    state, unless it is a redirection, whose [location] is built from the
    request. *)
Theorem reply_depends_on_method_and_path (req1 req2 : Request) (s s' : pystate)
    (reply : Reply) :
  method req1 = method req2 -> path req1 = path req2 ->
  call Main.app req1 s = Returned reply s' ->
  (forall r, reply = HttpReply r -> status_code r <> 307) ->
  call Main.app req2 s = Returned reply s'.
Proof.
  intros Hm Hp. rewrite !call_answer. unfold answer.
  rewrite (answer_inputs req1 req2 Hm Hp), <- Hm.
  replace (get_route_path req2) with (get_route_path req1)
    by (unfold get_route_path; done).
  rewrite (redirect_matches req1 req2 Hm Hp).
  intros Hcall Hno.
  destruct (builtin_route_for req2); [done|].
  destruct (path_regex_match "/" (get_route_path req1)); [done|].
  destruct (negb _ && existsb _ _); [|done].
  injection Hcall as <- <-. by destruct (Hno _ eq_refl).
Qed.

Lemma reply_depends_witness :
  method (request "GET" "/" [] "") = method (request "GET" "/" [("x-a", "1")] "body")
  /\ path (request "GET" "/" [] "") = path (request "GET" "/" [("x-a", "1")] "body")
  /\ call Main.app (request "GET" "/" [] "") empty_state
     = Returned (HttpReply hello_response) (after_root empty_state)
  /\ call Main.app (request "GET" "/" [("x-a", "1")] "body") empty_state
     = Returned (HttpReply hello_response) (after_root empty_state).
Proof.
  assert (H : call Main.app (request "GET" "/" [] "") empty_state
              = Returned (HttpReply hello_response) (after_root empty_state))
    by reflexivity.
  split; [reflexivity|]. split; [reflexivity|]. split; [exact H|].
  apply (reply_depends_on_method_and_path (request "GET" "/" [] "")
           (request "GET" "/" [("x-a", "1")] "body") empty_state
           (after_root empty_state) (HttpReply hello_response));
    [reflexivity|reflexivity|exact H|].
  intros r Hr. injection Hr as <-. discriminate.
Defined.

Lemma routed_answer (req : Request) (s : pystate) (rt : Route) :
  In rt (routes Main.app) ->
  path_regex_match (route_path rt) (get_route_path req) = true ->
  exists reply s2,
    call Main.app req s = Returned reply s2
    /\ (forall r2, reply = HttpReply r2 -> status_code r2 = 200 \/ status_code r2 = 405).
Proof.
  intros Hin Hp. rewrite call_answer. unfold answer.
  destruct (builtin_route_for req) as [r1|] eqn:Hb.
  - apply find_some in Hb as [Hr1 _].
    destruct (String.eqb (method req) "GET" || String.eqb (method req) "HEAD").
    + do 2 eexists. split; [reflexivity|]. by intros r2 Hr2.
    + do 2 eexists. split; [reflexivity|]. intros r2 Hr2. injection Hr2 as <-.
      right. by destruct (builtin_not_allowed_fields r1 Hr1) as (-> & _).
  - assert (Hroot : path_regex_match "/" (get_route_path req) = true).
    { rewrite routes_app in Hin. apply in_app_or in Hin as [Hin|[<-|[]]]; [|done].
      unfold builtin_route_for in Hb.
      pose proof (find_none _ _ Hb rt Hin) as Hnone. simpl in Hnone. congruence. }
    rewrite Hroot. destruct (String.eqb (method req) "GET").
    + do 2 eexists. split; [reflexivity|]. intros r2 Hr2. injection Hr2 as <-. by left.
    + do 2 eexists. split; [reflexivity|]. intros r2 Hr2. injection Hr2 as <-. by right.
Qed.

(** X10.  A redirection always points to a routed path: when a request
    is answered with status 307, its [location] is the address of the same
    request with the final slash added or removed, and that request is
    answered by a page of the framework, the greeting or status 405, never
    by a second redirection or by status 404. *)
Theorem redirect_target_is_routed (req : Request) (s s' : pystate) (r : Response) :
  call Main.app req s = Returned (HttpReply r) s' ->
  status_code r = 307 ->
  header_get (raw_headers r) "location"
  = Some (quote (":/%#?=@[]!$&'()*+,;") (URL_of_scope (redirect_request req)))
  /\ exists reply s2,
       call Main.app (redirect_request req) s' = Returned reply s2
       /\ (forall r2, reply = HttpReply r2 -> status_code r2 = 200 \/ status_code r2 = 405).
Proof.
  intros Hcall Hst. rewrite call_answer in Hcall. unfold answer in Hcall.
  destruct (builtin_route_for req) as [r0|] eqn:Hb.
  { apply find_some in Hb as [Hr0 _].
    destruct (String.eqb (method req) "GET" || String.eqb (method req) "HEAD");
      [discriminate Hcall|].
    injection Hcall as <- <-.
    destruct (builtin_not_allowed_fields r0 Hr0) as (Hst' & _). congruence. }
  destruct (path_regex_match "/" (get_route_path req)).
  { destruct (String.eqb (method req) "GET"); injection Hcall as <- <-;
      discriminate Hst. }
  destruct (negb _ && existsb _ _) eqn:Hred; injection Hcall as <- <-;
    [|discriminate Hst].
  split; [reflexivity|].
  apply andb_true_iff in Hred as [_ Hex].
  apply existsb_exists in Hex as (rt & Hin & Hmt).
  apply (routed_answer (redirect_request req) s rt Hin).
  unfold matches in Hmt. by destruct (path_regex_match _ _).
Qed.

Lemma redirect_target_witness :
  call Main.app (request "POST" "/docs/" [] "") empty_state
  = Returned
      (HttpReply (RedirectResponse (URL_of_scope (redirect_request (request "POST" "/docs/" [] "")))))
      empty_state
  /\ path (redirect_request (request "POST" "/docs/" [] "")) = "/docs"
  /\ exists reply s2,
       call Main.app (redirect_request (request "POST" "/docs/" [] "")) empty_state
       = Returned reply s2
       /\ (forall r2, reply = HttpReply r2 -> status_code r2 = 200 \/ status_code r2 = 405).
Proof.
  assert (H : call Main.app (request "POST" "/docs/" [] "") empty_state
              = Returned
                  (HttpReply (RedirectResponse
                     (URL_of_scope (redirect_request (request "POST" "/docs/" [] "")))))
                  empty_state)
    by reflexivity.
  split; [exact H|]. split; [reflexivity|].
  exact (proj2 (redirect_target_is_routed (request "POST" "/docs/" [] "") empty_state
                  empty_state _ H eq_refl)).
Defined.
